(** * LCA disclosure cleaning scripts: model and verified properties

    Shallow embedding of [scripts/clean_lca_xlsx_to_csv.py] and
    [scripts/backfill_clean_all.py].

    Conventions of the model.
    - A Python [str] is a [string] whose characters are read as the code
      points 0..255 (Latin-1); [str.strip], [str.lower] and the regular
      expression class [\w] are the Python 3 ones restricted to that range.
    - A pandas cell of dtype "string" is an [option string]; [None] is
      [pd.NA].
    - A float64 cell is a [num]: NaN, an infinity, or a finite value kept as
      an exact rational (the rounding error of float arithmetic is left out).
    - A [datetime64[ns]] cell is an [option Z]: nanoseconds since
      1970-01-01, [None] is [NaT].
    - The parsers of pandas itself ([pd.to_datetime] on text, [pd.to_numeric])
      are parameters of the pipeline. *)

From Stdlib Require Import List Bool Ascii String NArith ZArith QArith Qround.
From Stdlib Require Import Lia Lqa Permutation Sorted OrderedTypeEx.
Import ListNotations.

Open Scope string_scope.
Open Scope list_scope.

(* ================================================================= *)
(** ** Characters and strings, as Python 3 sees them below U+0100 *)

Module Py.

Definition code (c : ascii) : N := N_of_ascii c.

Definition between (lo hi : N) (c : ascii) : bool :=
  ((lo <=? code c) && (code c <=? hi))%N.

(** [str.isspace] of a one-character string. *)
Definition isspace (c : ascii) : bool :=
  between 9 13 c || between 28 32 c || (code c =? 133)%N || (code c =? 160)%N.

(** The class [\d] (Unicode category Nd). *)
Definition isdecimal (c : ascii) : bool := between 48 57 c.

(** [str.isalnum] of a one-character string: letters, decimal digits, and
    the superscripts and vulgar fractions, which are digit or numeric. *)
Definition isalnum (c : ascii) : bool :=
  between 48 57 c || between 65 90 c || between 97 122 c
  || (code c =? 170)%N || between 178 179 c || (code c =? 181)%N
  || between 185 186 c || between 188 190 c
  || between 192 214 c || between 216 246 c || between 248 255 c.

Definition is_underscore (c : ascii) : bool := (c =? "_")%char.

(** The class [\w] of [re] on a [str] pattern. *)
Definition is_word (c : ascii) : bool := isalnum c || is_underscore c.

Definition non_word (c : ascii) : bool := negb (is_word c).

(** [str.lower] on one character. *)
Definition lower_char (c : ascii) : ascii :=
  if between 65 90 c || (between 192 222 c && negb (code c =? 215)%N)
  then ascii_of_N (code c + 32)
  else c.

Definition lower (l : list ascii) : list ascii := map lower_char l.

Fixpoint lstrip (p : ascii -> bool) (l : list ascii) : list ascii :=
  match l with
  | [] => []
  | c :: t => if p c then lstrip p t else l
  end.

Fixpoint rstrip (p : ascii -> bool) (l : list ascii) : list ascii :=
  match l with
  | [] => []
  | c :: t =>
      match rstrip p t with
      | [] => if p c then [] else [c]
      | r => c :: r
      end
  end.

(** [s.strip()] is [strip isspace]; [s.strip("_")] is [strip is_underscore]. *)
Definition strip (p : ascii -> bool) (l : list ascii) : list ascii :=
  rstrip p (lstrip p l).

(** [re.sub(r"[C]+", "_", s)]: every maximal run of characters of the class
    [p] becomes one underscore.  [in_run] tells that the previous character
    belonged to the run being replaced. *)
Fixpoint re_sub_runs (p : ascii -> bool) (in_run : bool) (l : list ascii)
  : list ascii :=
  match l with
  | [] => []
  | c :: t =>
      if p c
      then if in_run then re_sub_runs p true t
           else "_"%char :: re_sub_runs p true t
      else c :: re_sub_runs p false t
  end.

Definition re_sub (p : ascii -> bool) (l : list ascii) : list ascii :=
  re_sub_runs p false l.

(** The token normalisation shared by [norm_col] and [normalize_wage_unit]:
    [s.strip().lower()], then the two [re.sub], then [.strip("_")]. *)
Definition norm_token (l : list ascii) : list ascii :=
  strip is_underscore
    (re_sub is_underscore
       (re_sub non_word
          (lower (strip isspace l)))).

Definition on_chars (f : list ascii -> list ascii) (s : string) : string :=
  string_of_list_ascii (f (list_ascii_of_string s)).

(** [s.strip()] on a string. *)
Definition str_strip (s : string) : string := on_chars (strip isspace) s.

End Py.

(* ================================================================= *)
(** ** Header normalisation *)

(** [norm_col], the same function in both scripts. *)
Definition norm_col (name : string) : string := Py.on_chars Py.norm_token name.

(* ================================================================= *)
(** ** Cells *)

(** A cell of a column of dtype "string". *)
Definition cell := option string.

(** A float64 cell. *)
Inductive num : Type :=
| NaN
| Inf (negative : bool)
| Fin (q : Q).

(** A [datetime64[ns]] cell: nanoseconds since 1970-01-01, or [NaT]. *)
Definition timestamp := option Z.

Module Float.

Definition notna (x : num) : bool :=
  match x with NaN => false | _ => true end.

Definition isna (x : num) : bool := negb (notna x).

Definition Qneg (q : Q) : bool := negb (Qle_bool 0 q).
Definition Qzero (q : Q) : bool := Qeq_bool q 0.

Definition add (x y : num) : num :=
  match x, y with
  | NaN, _ | _, NaN => NaN
  | Inf a, Inf b => if Bool.eqb a b then Inf a else NaN
  | Inf a, Fin _ => Inf a
  | Fin _, Inf b => Inf b
  | Fin a, Fin b => Fin (a + b)
  end.

Definition mul (x y : num) : num :=
  match x, y with
  | NaN, _ | _, NaN => NaN
  | Inf a, Inf b => Inf (xorb a b)
  | Inf a, Fin q => if Qzero q then NaN else Inf (xorb a (Qneg q))
  | Fin q, Inf b => if Qzero q then NaN else Inf (xorb (Qneg q) b)
  | Fin a, Fin b => Fin (a * b)
  end.

Definition div (x y : num) : num :=
  match x, y with
  | NaN, _ | _, NaN => NaN
  | Inf _, Inf _ => NaN
  | Inf a, Fin q => Inf (xorb a (Qneg q))
  | Fin _, Inf _ => Fin 0
  | Fin a, Fin b =>
      if Qzero b then (if Qzero a then NaN else Inf (Qneg a))
      else Fin (a / b)
  end.

(** [x <= y] on floats: false as soon as a NaN is involved. *)
Definition le (x y : num) : bool :=
  match x, y with
  | NaN, _ | _, NaN => false
  | Inf true, _ => true
  | _, Inf false => true
  | Inf false, _ => false
  | _, Inf true => false
  | Fin a, Fin b => Qle_bool a b
  end.

Definition ge (x y : num) : bool := le y x.

(** Round half to even, the rounding of [rint]. *)
Definition rint (q : Q) : Z :=
  let f := Qfloor q in
  match ((q - inject_Z f) ?= (1 # 2))%Q with
  | Lt => f
  | Gt => (f + 1)%Z
  | Eq => if Z.even f then f else (f + 1)%Z
  end.

(** [Series.round(2)]: scale by 100, [rint], scale back. *)
Definition round2 (x : num) : num :=
  match x with
  | Fin q => Fin (inject_Z (rint (q * 100)) / 100)
  | _ => x
  end.

(** The row maximum of two cells with [skipna=True]. *)
Definition max_skipna (x y : num) : num :=
  match x, y with
  | NaN, _ => y
  | _, NaN => x
  | _, _ => if le x y then y else x
  end.

(** [s.where(cond, other)] at one row. *)
Definition where_ (x : num) (cond : bool) (other : num) : num :=
  if cond then x else other.

End Float.

(* ================================================================= *)
(** ** Lookup tables *)

Fixpoint dict_get {V : Type} (d : list (string * V)) (k : string) : option V :=
  match d with
  | [] => None
  | (k', v) :: t => if (k' =? k)%string then Some v else dict_get t k
  end.

Definition dict_mem {V : Type} (d : list (string * V)) (k : string) : bool :=
  match dict_get d k with Some _ => true | None => false end.

Definition str_in (s : string) (l : list string) : bool :=
  existsb (String.eqb s) l.

Definition WAGE_FACTORS : list (string * num) :=
  [ ("year", Fin 1); ("yr", Fin 1); ("annual", Fin 1);
    ("hour", Fin 2080); ("hr", Fin 2080);
    ("week", Fin 52); ("wk", Fin 52);
    ("bi_weekly", Fin 26); ("biweekly", Fin 26);
    ("semi_monthly", Fin 24); ("semimonthly", Fin 24);
    ("month", Fin 12); ("mo", Fin 12);
    ("day", Fin 260); ("daily", Fin 260) ].

Definition TARGET_COLS : list string :=
  [ "case_number"; "case_status"; "received_date"; "decision_date";
    "employer_name"; "job_title"; "soc_code"; "soc_title";
    "worksite_city"; "worksite_state";
    "wage_rate_from"; "wage_rate_to"; "wage_unit"; "wage_annual"; "year" ].

(* ================================================================= *)
(** ** Text and wage-unit clean-up *)

(** [s.replace({k: pd.NA for k in keys})] at one cell. *)
Definition replace_na (keys : list string) (c : cell) : cell :=
  match c with
  | Some s => if str_in s keys then None else Some s
  | None => None
  end.

(** [clean_text_series] at one cell. *)
Definition clean_text_series (c : cell) : cell :=
  replace_na [""; "nan"; "NaN"; "NONE"; "None"] (option_map Py.str_strip c).

(** What [normalize_wage_unit] can be handed: [None], a float NaN, [pd.NA]
    or a string. *)
Inductive unit_arg : Type :=
| PyNone
| PyNaN
| PdNA
| PyStr (s : string).

(** [str(u)]. *)
Definition str_of_unit_arg (u : unit_arg) : string :=
  match u with
  | PyNone => "None"
  | PyNaN => "nan"
  | PdNA => "<NA>"
  | PyStr s => s
  end.

Definition normalize_wage_unit (u : unit_arg) : cell :=
  match u with
  | PyNone | PyNaN => None
  | _ =>
      let s := Py.on_chars Py.norm_token (str_of_unit_arg u) in
      if str_in s ["bi_weekly"; "biweekly"] then Some "bi_weekly"
      else if str_in s ["semi_monthly"; "semi_month"] then Some "semi_monthly"
      else if str_in s ["hour"; "hr"; "per_hour"] then Some "hour"
      else if str_in s ["week"; "wk"; "per_week"] then Some "week"
      else if str_in s ["month"; "mo"; "per_month"] then Some "month"
      else if str_in s ["year"; "yr"; "per_year"; "annual"] then Some "year"
      else if str_in s ["day"; "daily"; "per_day"] then Some "day"
      else if (s =? "")%string then None else Some s
  end.

(** The spellings [normalize_wage_unit] tests for. *)
Definition recognized_variants : list string :=
  [ "bi_weekly"; "biweekly"; "semi_monthly"; "semi_month";
    "hour"; "hr"; "per_hour"; "week"; "wk"; "per_week";
    "month"; "mo"; "per_month"; "year"; "yr"; "per_year"; "annual";
    "day"; "daily"; "per_day" ].

(** An element of a "string" column as [Series.apply] hands it over. *)
Definition unit_arg_of_cell (c : cell) : unit_arg :=
  match c with Some s => PyStr s | None => PdNA end.

(** [wage_unit.apply(normalize_wage_unit).astype("string")] at one row. *)
Definition unit_norm (wage_unit : cell) : cell :=
  normalize_wage_unit (unit_arg_of_cell wage_unit).

(** [str(x)] of an element of a "string" column. *)
Definition str_of_cell (c : cell) : string :=
  match c with Some s => s | None => "<NA>" end.

(** [WAGE_FACTORS.get(str(x), np.nan)]. *)
Definition wage_factor (x : cell) : num :=
  match dict_get WAGE_FACTORS (str_of_cell x) with
  | Some f => f
  | None => NaN
  end.

(** The guard rails: keep [annual] where it is NaN or within
    [1000, 5_000_000], NaN elsewhere. *)
Definition guardrails (annual : num) : num :=
  Float.where_ annual
    (Float.isna annual
     || (Float.ge annual (Fin 1000) && Float.le annual (Fin 5000000)))
    NaN.

(* ================================================================= *)
(** ** Calendar: the proleptic Gregorian calendar of [datetime64] *)

Module Calendar.
Open Scope Z_scope.

(** Days from 1970-01-01 to the civil date [y]-[m]-[d]. *)
Definition days_from_civil (y m d : Z) : Z :=
  let y' := if m <=? 2 then y - 1 else y in
  let era := y' / 400 in
  let yoe := y' - era * 400 in
  let mp := (m + 9) mod 12 in
  let doy := (153 * mp + 2) / 5 + d - 1 in
  let doe := yoe * 365 + yoe / 4 - yoe / 100 + doy in
  era * 146097 + doe - 719468.

(** The civil date (year, month, day) that lies [z] days after 1970-01-01. *)
Definition civil_from_days (z : Z) : Z * Z * Z :=
  let z := z + 719468 in
  let era := z / 146097 in
  let doe := z - era * 146097 in
  let yoe := (doe - doe / 1460 + doe / 36524 - doe / 146096) / 365 in
  let doy := doe - (365 * yoe + yoe / 4 - yoe / 100) in
  let mp := (5 * doy + 2) / 153 in
  let d := doy - (153 * mp + 2) / 5 + 1 in
  let m := if mp <? 10 then mp + 3 else mp - 9 in
  let y := yoe + era * 400 in
  (if m <=? 2 then y + 1 else y, m, d).

Definition ns_per_day : Z := 86400 * 1000000000.

(** The calendar date of a timestamp ([Timestamp.date()]). *)
Definition date_of (t : Z) : Z * Z * Z := civil_from_days (t / ns_per_day).

(** [Timestamp.year]. *)
Definition year_of (t : Z) : Z := fst (fst (date_of t)).

(** [pd.Timestamp("1899-12-30")], the day zero of spreadsheet serials. *)
Definition excel_origin : Z := days_from_civil 1899 12 30 * ns_per_day.

(** [pd.to_datetime(n, unit="D", origin="1899-12-30")]. *)
Definition of_serial (n : Z) : Z := excel_origin + n * ns_per_day.

End Calendar.

(* ================================================================= *)
(** ** Mixed date parsing *)

(** [re.fullmatch(r"\d{4,6}", s)]. *)
Definition fullmatch_serial (s : string) : bool :=
  let l := list_ascii_of_string s in
  (4 <=? List.length l)%nat && (List.length l <=? 6)%nat
  && forallb Py.isdecimal l.

Definition digit_value (c : ascii) : Z := Z.of_N (Py.code c) - 48.

(** The value of a numeral made of decimal digits ([int], and
    [pd.to_numeric] on such a string). *)
Definition int_of_digits (l : list ascii) : Z :=
  fold_left (fun acc c => acc * 10 + digit_value c)%Z l 0%Z.

Section Dates.

(** [pd.to_datetime(text, errors="coerce")] on one non-missing string: the
    calendar-string parser of pandas. *)
Variable to_datetime : string -> timestamp.

(** [ss] of [parse_mixed_date_series]: trimmed, with the empty string and
    the nan spellings turned into [pd.NA]. *)
Definition date_text (c : cell) : cell :=
  replace_na [""; "nan"; "NaN"] (option_map Py.str_strip c).

(** [serial_vals]: the numeric value where [ss] is a 4-6 digit numeral. *)
Definition serial_val (ss : cell) : option Z :=
  match ss with
  | Some s =>
      if fullmatch_serial s
      then Some (int_of_digits (list_ascii_of_string s))
      else None
  | None => None
  end.

(** [parse_mixed_date_series] at one cell. *)
Definition parse_mixed_date_series (c : cell) : timestamp :=
  let ss := date_text c in
  let out := match ss with Some s => to_datetime s | None => None end in
  let needs_serial :=
    match out, serial_val ss with
    | None, Some n => (18000 <=? n)%Z && (n <=? 60000)%Z
    | _, _ => false
    end in
  if needs_serial
  then option_map Calendar.of_serial (serial_val ss)
  else out.

End Dates.

(* ================================================================= *)
(** ** Data frames and duplicate columns *)

(** A frame read with [dtype="string"]: the column labels and the rows, each
    with its index label. *)
Record DataFrame : Type := {
  columns : list string;
  rows : list (nat * list cell)
}.

(** [df.columns.is_unique]. *)
Fixpoint is_unique (l : list string) : bool :=
  match l with
  | [] => true
  | x :: t => negb (str_in x t) && is_unique t
  end.

(** [pd.unique]: the distinct labels in first-seen order. *)
Fixpoint unique_from (seen : list string) (l : list string) : list string :=
  match l with
  | [] => []
  | x :: t =>
      if str_in x seen then unique_from seen t
      else x :: unique_from (x :: seen) t
  end.

Definition unique (l : list string) : list string := unique_from [] l.

(** [df.loc[:, df.columns == name]] at one row: the cells under the columns
    labelled [name], left to right. *)
Fixpoint loc_name (name : string) (cols : list string) (row : list cell)
  : list cell :=
  match cols, row with
  | c :: cs, v :: vs =>
      if (c =? name)%string then v :: loc_name name cs vs
      else loc_name name cs vs
  | _, _ => []
  end.

(** [bfill(axis=1)] on one row: a missing cell takes the next value to its
    right that is not missing. *)
Fixpoint bfill (l : list cell) : list cell :=
  match l with
  | [] => []
  | c :: t =>
      let t' := bfill t in
      match c with
      | Some _ => c :: t'
      | None => hd None t' :: t'
      end
  end.

(** [.iloc[:, 0]] at one row. *)
Definition iloc0 (l : list cell) : cell := hd None l.

Definition coalesce_row (cols : list string) (row : list cell) : list cell :=
  map (fun name => iloc0 (bfill (loc_name name cols row))) (unique cols).

Definition coalesce_duplicate_columns (df : DataFrame) : DataFrame :=
  if is_unique (columns df) then df
  else {| columns := unique (columns df);
          rows := map (fun ir => (fst ir, coalesce_row (columns df) (snd ir)))
                      (rows df) |}.

(** [df[name]] at one row once the missing target columns have been added
    as all-[pd.NA] columns. *)
Fixpoint get_cell (name : string) (cols : list string) (row : list cell)
  : cell :=
  match cols, row with
  | c :: cs, v :: vs =>
      if (c =? name)%string then v else get_cell name cs vs
  | _, _ => None
  end.

(** [df.rename(columns=rename_map)] with the map built from the synonym
    table: the labels whose normal form is a key take the target name. *)
Definition rename_columns (table : list (string * string)) (cols : list string)
  : list string :=
  map (fun c => match dict_get table (norm_col c) with
                | Some target => target
                | None => c
                end) cols.

(** [df.rename(columns=rename_map)] on a frame. *)
Definition rename_frame (table : list (string * string)) (df : DataFrame)
  : DataFrame :=
  {| columns := rename_columns table (columns df); rows := rows df |}.

(** The cleaned record of the fixed target fields. *)
Record CleanRow : Type := {
  case_number : cell;
  case_status : cell;
  received_date : timestamp;
  decision_date : timestamp;
  employer_name : cell;
  job_title : cell;
  soc_code : cell;
  soc_title : cell;
  worksite_city : cell;
  worksite_state : cell;
  wage_rate_from : num;
  wage_rate_to : num;
  wage_unit : cell;
  wage_annual : num;
  year : option Z
}.

(** [s.str.replace(r"[\$,]", "", regex=True)]. *)
Definition drop_currency (l : list ascii) : list ascii :=
  filter (fun c => negb ((c =? "$")%char || (c =? ",")%char)) l.

Definition is_some {A : Type} (o : option A) : bool :=
  match o with Some _ => true | None => false end.

(* ================================================================= *)
(** ** [clean_lca_xlsx_to_csv.py] *)

Module Clean.

Definition SOURCE_TO_TARGET : list (string * string) :=
  [ ("case_number", "case_number"); ("case_no", "case_number");
    ("case_status", "case_status"); ("status", "case_status");
    ("received_date", "received_date");
    ("case_received_date", "received_date");
    ("decision_date", "decision_date");
    ("case_decision_date", "decision_date");
    ("original_cert_date", "decision_date");
    ("employer_name", "employer_name"); ("employer", "employer_name");
    ("employer_company_name", "employer_name");
    ("job_title", "job_title"); ("jobtitle", "job_title");
    ("soc_code", "soc_code"); ("soc", "soc_code");
    ("soc_title", "soc_title");
    ("worksite_city", "worksite_city"); ("employer_city", "worksite_city");
    ("worksite_state", "worksite_state");
    ("employer_state", "worksite_state");
    ("wage_rate_of_pay_from", "wage_rate_from");
    ("wage_rate_from", "wage_rate_from");
    ("wage_rate_of_pay_to", "wage_rate_to");
    ("wage_rate_to", "wage_rate_to");
    ("wage_unit_of_pay", "wage_unit"); ("wage_unit", "wage_unit") ].

(** The base value of [compute_wage_annual] at one row, by strategy. *)
Definition base_value (strategy : string) (wage_from wage_to : num) : num :=
  if (strategy =? "avg")%string then
    let base := Float.where_ wage_from (Float.notna wage_from) NaN in
    let both := Float.notna wage_from && Float.notna wage_to in
    if both then Float.div (Float.add wage_from wage_to) (Fin 2) else base
  else if (strategy =? "max")%string then
    Float.max_skipna wage_from wage_to
  else
    Float.where_ wage_from (Float.notna wage_from) wage_to.

(** [compute_wage_annual] at one row. *)
Definition compute_wage_annual
  (strategy : string) (wage_from wage_to : num) (wage_unit : cell) : num :=
  let base := base_value strategy wage_from wage_to in
  let factors := wage_factor (unit_norm wage_unit) in
  let annual := Float.mul base factors in
  guardrails annual.

(** [infer_usecols_from_xlsx].  [header] is what reading the header row
    gives: the labels, or [None] when [pd.read_excel] raises.  In the result
    [None] stands for "read every column". *)
Definition infer_usecols_from_xlsx (header : option (list string))
  : option (list string) * list (string * string) :=
  match header with
  | None => (None, [])
  | Some original_cols =>
      let norm_map := map (fun c => (c, norm_col c)) original_cols in
      let keep_cols :=
        filter (fun c => match dict_get norm_map c with
                         | Some n => dict_mem SOURCE_TO_TARGET n
                         | None => false
                         end) original_cols in
      match keep_cols with
      | [] => (None, norm_map)
      | _ => (Some keep_cols, norm_map)
      end
  end.

Section Pipeline.

(** [pd.to_numeric(text, errors="coerce")] on one non-missing string,
    [pd.to_datetime(text, errors="coerce")] likewise, and [str.upper]. *)
Variable to_numeric : string -> num.
Variable to_datetime : string -> timestamp.
Variable str_upper : string -> string.

(** [coerce_numeric_series] at one cell. *)
Definition coerce_numeric_series (c : cell) : num :=
  match replace_na [""]
          (option_map
             (fun s => Py.str_strip (Py.on_chars drop_currency s)) c) with
  | Some s => to_numeric s
  | None => NaN
  end.

(** The body of [load_and_clean_dataframe] at one row of the frame whose
    columns are [cols], missing target columns reading as [pd.NA]. *)
Definition clean_row (wage_strategy : string) (cols : list string)
  (r : list cell) : CleanRow :=
  let text name := clean_text_series (get_cell name cols r) in
  let state :=
    replace_na [""]
      (option_map (fun s => Py.str_strip (str_upper s))
         (text "worksite_state")) in
  let wage_from := coerce_numeric_series (get_cell "wage_rate_from" cols r) in
  let wage_to := coerce_numeric_series (get_cell "wage_rate_to" cols r) in
  let received :=
    parse_mixed_date_series to_datetime (get_cell "received_date" cols r) in
  let decision :=
    parse_mixed_date_series to_datetime (get_cell "decision_date" cols r) in
  let unit := text "wage_unit" in
  {| case_number := clean_text_series (text "case_number");
     case_status := clean_text_series (text "case_status");
     received_date := received;
     decision_date := decision;
     employer_name := clean_text_series (text "employer_name");
     job_title := clean_text_series (text "job_title");
     soc_code := clean_text_series (text "soc_code");
     soc_title := clean_text_series (text "soc_title");
     worksite_city := clean_text_series (text "worksite_city");
     worksite_state := clean_text_series state;
     wage_rate_from := wage_from;
     wage_rate_to := wage_to;
     wage_unit := clean_text_series unit;
     wage_annual :=
       Float.round2 (compute_wage_annual wage_strategy wage_from wage_to unit);
     year := option_map Calendar.year_of decision |}.

(** [load_and_clean_dataframe]: rename, coalesce, clean every row, then keep
    the rows whose [case_number] is not missing. *)
Definition load_and_clean_dataframe (df : DataFrame) (wage_strategy : string)
  : list (nat * CleanRow) :=
  let df1 := coalesce_duplicate_columns (rename_frame SOURCE_TO_TARGET df) in
  let cleaned :=
    map (fun ir => (fst ir, clean_row wage_strategy (columns df1) (snd ir)))
        (rows df1) in
  filter (fun ir => is_some (case_number (snd ir))) cleaned.

End Pipeline.

End Clean.

(* ================================================================= *)
(** ** [backfill_clean_all.py] *)

Module Backfill.

Definition SOURCE_TO_TARGET : list (string * string) :=
  [ ("case_number", "case_number"); ("case_no", "case_number");
    ("case_status", "case_status"); ("status", "case_status");
    ("received_date", "received_date");
    ("case_received_date", "received_date");
    ("decision_date", "decision_date");
    ("case_decision_date", "decision_date");
    ("original_cert_date", "decision_date");
    ("employer_name", "employer_name"); ("employer", "employer_name");
    ("job_title", "job_title"); ("jobtitle", "job_title");
    ("soc_code", "soc_code"); ("soc", "soc_code");
    ("soc_title", "soc_title");
    ("worksite_city", "worksite_city");
    ("worksite_state", "worksite_state");
    ("wage_rate_of_pay_from", "wage_rate_from");
    ("wage_rate_from", "wage_rate_from");
    ("wage_rate_of_pay_to", "wage_rate_to");
    ("wage_rate_to", "wage_rate_to");
    ("wage_unit_of_pay", "wage_unit"); ("wage_unit", "wage_unit") ].

(** [compute_wage_annual] at one row; the rounding is part of it here. *)
Definition compute_wage_annual (wage_from wage_to : num) (wage_unit : cell)
  : num :=
  let base := Float.where_ wage_from (Float.notna wage_from) wage_to in
  let factors := wage_factor (unit_norm wage_unit) in
  let annual := Float.mul base factors in
  Float.round2 (guardrails annual).

(** [infer_usecols_from_xlsx]; [None] stands for "read every column". *)
Definition infer_usecols_from_xlsx (header : option (list string))
  : option (list string) :=
  match header with
  | None => None
  | Some cols =>
      let norm_map := map (fun c => (c, norm_col c)) cols in
      let keep :=
        filter (fun c => match dict_get norm_map c with
                         | Some n => dict_mem SOURCE_TO_TARGET n
                         | None => false
                         end) cols in
      match keep with
      | [] => None
      | _ => Some keep
      end
  end.

Section Pipeline.

Variable to_numeric : string -> num.
Variable to_datetime : string -> timestamp.
Variable str_upper : string -> string.

(** [load_and_clean] at one row. *)
Definition clean_row (cols : list string) (r : list cell) : CleanRow :=
  let text name := clean_text_series (get_cell name cols r) in
  let state :=
    replace_na [""]
      (option_map (fun s => Py.str_strip (str_upper s))
         (text "worksite_state")) in
  let wage_from :=
    Clean.coerce_numeric_series to_numeric (get_cell "wage_rate_from" cols r) in
  let wage_to :=
    Clean.coerce_numeric_series to_numeric (get_cell "wage_rate_to" cols r) in
  let received :=
    parse_mixed_date_series to_datetime (get_cell "received_date" cols r) in
  let decision :=
    parse_mixed_date_series to_datetime (get_cell "decision_date" cols r) in
  {| case_number := text "case_number";
     case_status := text "case_status";
     received_date := received;
     decision_date := decision;
     employer_name := text "employer_name";
     job_title := text "job_title";
     soc_code := text "soc_code";
     soc_title := text "soc_title";
     worksite_city := text "worksite_city";
     worksite_state := state;
     wage_rate_from := wage_from;
     wage_rate_to := wage_to;
     wage_unit := text "wage_unit";
     wage_annual := compute_wage_annual wage_from wage_to (text "wage_unit");
     year := option_map Calendar.year_of decision |}.

Definition load_and_clean (df : DataFrame) : list (nat * CleanRow) :=
  let df1 := coalesce_duplicate_columns (rename_frame SOURCE_TO_TARGET df) in
  let cleaned :=
    map (fun ir => (fst ir, clean_row (columns df1) (snd ir))) (rows df1) in
  filter (fun ir => is_some (case_number (snd ir))) cleaned.

End Pipeline.

(** A pattern letter under [re.IGNORECASE]. *)
Definition ieq (c letter : ascii) : bool :=
  (Py.lower_char c =? Py.lower_char letter)%char.

(** The pattern [FY(\d{4})_Q([1-4])] matched at the head of [l]. *)
Definition match_fy_q (l : list ascii) : option (Z * Z) :=
  match l with
  | f :: y :: d1 :: d2 :: d3 :: d4 :: u :: q :: n :: _ =>
      if ieq f "F" && ieq y "Y"
         && forallb Py.isdecimal [d1; d2; d3; d4]
         && (u =? "_")%char && ieq q "Q" && Py.between 49 52 n
      then Some (int_of_digits [d1; d2; d3; d4], int_of_digits [n])
      else None
  | _ => None
  end.

(** [re.search]: the leftmost position where the pattern matches. *)
Fixpoint search_fy_q (l : list ascii) : option (Z * Z) :=
  match match_fy_q l with
  | Some r => Some r
  | None =>
      match l with
      | [] => None
      | _ :: t => search_fy_q t
      end
  end.

Definition parse_fy_q (filename : string) : option Z * option Z :=
  match search_fy_q (list_ascii_of_string filename) with
  | None => (None, None)
  | Some (fy, q) => (Some fy, Some q)
  end.





End Backfill.

(* ================================================================= *)
(** ** Predicates used by the statements *)

Module TokenShape.
Import Py.

(** What every character of a normalised token satisfies. *)
Definition settled (c : ascii) : Prop :=
  is_word c = true /\ lower_char c = c.

(** No two underscores in a row; [prev] tells that the character before the
    list is an underscore. *)
Fixpoint single_underscores (prev : bool) (l : list ascii) : bool :=
  match l with
  | [] => true
  | c :: t =>
      if is_underscore c then negb prev && single_underscores true t
      else single_underscores false t
  end.

(** The shape [norm_token] produces. *)
Record normal (l : list ascii) : Prop := {
  normal_chars : Forall settled l;
  normal_single : single_underscores false l = true;
  normal_left : lstrip is_underscore l = l;
  normal_right : rstrip is_underscore l = l
}.

End TokenShape.

(** A wage that is missing or within the plausibility bounds. *)
Definition wage_in_range (w : num) : Prop :=
  match w with
  | NaN => True
  | Inf _ => False
  | Fin q => (1000 <= q /\ q <= 5000000)%Q
  end.

(** A raw annual figure within the bounds, as the guard tests it. *)
Definition within_bounds (annual : num) : bool :=
  Float.ge annual (Fin 1000) && Float.le annual (Fin 5000000).

(** [v] is the first non-missing value of row [r] among the columns
    labelled [name], scanning left to right; missing when there is none. *)
Definition leftmost_present
  (name : string) (cols : list string) (r : list cell) (v : cell) : Prop :=
  match v with
  | Some x =>
      exists j, nth_error cols j = Some name
                /\ nth_error r j = Some (Some x)
                /\ forall k, (k < j)%nat -> nth_error cols k = Some name ->
                             nth_error r k = Some None
  | None =>
      forall j c, nth_error cols j = Some name -> nth_error r j = Some c ->
                  c = None
  end.

(** The merged cell of a name in a row: back-fill the cells under the
    columns of that name and take the first. *)
Definition merged (name : string) (cols : list string) (r : list cell) : cell :=
  iloc0 (bfill (loc_name name cols r)).

(** The row transformation of [coalesce_duplicate_columns]. *)
Definition merge_row (cols : list string) (r : list cell) : list cell :=
  if is_unique cols then r else coalesce_row cols r.

(** The [case_number] of a raw row after renaming, coalescing and text
    normalisation. *)
Definition normalized_case_number
  (table : list (string * string)) (df : DataFrame) (r : list cell) : cell :=
  clean_text_series
    (merged "case_number" (rename_columns table (columns df)) r).

(** A calendar-string parser that reads only [YYYY-MM-DD]; it stands for
    [pd.to_datetime] where a statement is tried on a concrete input. *)
Definition iso_to_datetime (s : string) : timestamp :=
  match list_ascii_of_string s with
  | [y1; y2; y3; y4; h1; m1; m2; h2; d1; d2] =>
      if forallb Py.isdecimal [y1; y2; y3; y4; m1; m2; d1; d2]
         && (h1 =? "-")%char && (h2 =? "-")%char
      then Some (Calendar.days_from_civil
                   (int_of_digits [y1; y2; y3; y4])
                   (int_of_digits [m1; m2])
                   (int_of_digits [d1; d2]) * Calendar.ns_per_day)%Z
      else None
  | _ => None
  end.


(** The pattern [FY<4 digits>_Q<1-4>], letters in either case, occurs in
    [filename] with the digits that read [fy] and [q]. *)
Definition fy_q_occurs (filename : string) (fy q : Z) : Prop :=
  exists pre f y d1 d2 d3 d4 qc n post,
    list_ascii_of_string filename
    = pre ++ [f; y; d1; d2; d3; d4; "_"%char; qc; n] ++ post
    /\ (f = "F" \/ f = "f")%char
    /\ (y = "Y" \/ y = "y")%char
    /\ (qc = "Q" \/ qc = "q")%char
    /\ forallb Py.isdecimal [d1; d2; d3; d4] = true
    /\ fy = int_of_digits [d1; d2; d3; d4]
    /\ (n = "1" \/ n = "2" \/ n = "3" \/ n = "4")%char
    /\ q = digit_value n.



(* ================================================================= *)
(** * Properties *)

(** ** Facts about the string primitives *)

Module PyFacts.
Import Py TokenShape.

Ltac by_cases_on_char c :=
  destruct c as [[] [] [] [] [] [] [] []]; vm_compute; try reflexivity;
  try discriminate.

Lemma lower_char_idem c : lower_char (lower_char c) = lower_char c.
Proof. by_cases_on_char c. Qed.

Lemma space_not_word c : isspace c = true -> is_word c = false.
Proof. by_cases_on_char c. Qed.

Lemma is_underscore_eq c : is_underscore c = true -> c = "_"%char.
Proof. unfold is_underscore. apply Ascii.eqb_eq. Qed.

Lemma settled_underscore : settled "_"%char.
Proof. split; reflexivity. Qed.

Section Strip.
Variable p : ascii -> bool.

Lemma lstrip_Forall (P : ascii -> Prop) l :
  Forall P l -> Forall P (lstrip p l).
Proof.
  induction 1 as [|c t Hc Ht IH]; simpl; [constructor|].
  destruct (p c); [exact IH | constructor; assumption].
Qed.

Lemma rstrip_Forall (P : ascii -> Prop) l :
  Forall P l -> Forall P (rstrip p l).
Proof.
  induction 1 as [|c t Hc Ht IH]; simpl; [constructor|].
  destruct (rstrip p t) as [|r rs].
  - destruct (p c); repeat constructor; assumption.
  - constructor; assumption.
Qed.

Lemma strip_Forall (P : ascii -> Prop) l :
  Forall P l -> Forall P (strip p l).
Proof. intro H. apply rstrip_Forall, lstrip_Forall, H. Qed.

Lemma lstrip_none l :
  Forall (fun c => p c = false) l -> lstrip p l = l.
Proof. destruct 1 as [|c t Hc _]; simpl; [|rewrite Hc]; reflexivity. Qed.

Lemma rstrip_none l :
  Forall (fun c => p c = false) l -> rstrip p l = l.
Proof.
  induction 1 as [|c t Hc _ IH]; simpl; [reflexivity|].
  rewrite IH, Hc. destruct t; reflexivity.
Qed.

Lemma lstrip_length l : (List.length (lstrip p l) <= List.length l)%nat.
Proof.
  induction l as [|c t IH]; simpl; [lia|].
  destruct (p c); simpl; lia.
Qed.

(** A list that [lstrip] leaves alone is empty or starts outside [p]. *)
Lemma lstrip_fixed_head c t : lstrip p (c :: t) = c :: t -> p c = false.
Proof.
  simpl. destruct (p c); [|reflexivity].
  intro H. pose proof (lstrip_length t) as L. rewrite H in L. simpl in L. lia.
Qed.

Lemma lstrip_idem l : lstrip p (lstrip p l) = lstrip p l.
Proof.
  induction l as [|c t IH]; simpl; [reflexivity|].
  destruct (p c) eqn:E; [exact IH|]. simpl. rewrite E. reflexivity.
Qed.

Lemma rstrip_idem l : rstrip p (rstrip p l) = rstrip p l.
Proof.
  induction l as [|c t IH]; simpl; [reflexivity|].
  destruct (rstrip p t) as [|r rs] eqn:E.
  - destruct (p c) eqn:Ec; simpl; [|rewrite Ec]; reflexivity.
  - change (rstrip p (c :: r :: rs)) with
      (match rstrip p (r :: rs) with
       | [] => if p c then [] else [c]
       | x => c :: x
       end).
    rewrite IH. reflexivity.
Qed.

Lemma rstrip_keeps_head l :
  lstrip p l = l -> lstrip p (rstrip p l) = rstrip p l.
Proof.
  destruct l as [|c t]; [reflexivity|].
  intro H. apply lstrip_fixed_head in H.
  simpl rstrip. destruct (rstrip p t); rewrite ?H; simpl; rewrite H; reflexivity.
Qed.

(** [strip] is stable under both of its halves, hence idempotent. *)
Lemma strip_lstrip l : lstrip p (strip p l) = strip p l.
Proof. apply rstrip_keeps_head, lstrip_idem. Qed.

Lemma strip_rstrip l : rstrip p (strip p l) = strip p l.
Proof. apply rstrip_idem. Qed.

Lemma strip_idem l : strip p (strip p l) = strip p l.
Proof. unfold strip at 1. rewrite strip_lstrip. apply strip_rstrip. Qed.

End Strip.

Lemma single_underscores_weaken l :
  single_underscores true l = true -> single_underscores false l = true.
Proof. destruct l as [|c t]; simpl; [reflexivity|]. destruct (is_underscore c); [discriminate|auto]. Qed.

Lemma re_sub_runs_Forall (P : ascii -> Prop) p b l :
  P "_"%char -> Forall (fun c => p c = false -> P c) l ->
  Forall P (re_sub_runs p b l).
Proof.
  intros Hu H. revert b.
  induction H as [|c t Hc _ IH]; intro b; simpl; [constructor|].
  destruct (p c) eqn:E.
  - destruct b; [apply IH | constructor; [exact Hu | apply IH]].
  - constructor; [apply Hc; reflexivity | apply IH].
Qed.

Lemma re_sub_runs_none p b l :
  Forall (fun c => p c = false) l -> re_sub_runs p b l = l.
Proof.
  intro H. revert b.
  induction H as [|c t Hc _ IH]; intro b; simpl; [reflexivity|].
  rewrite Hc, IH. reflexivity.
Qed.

Lemma collapse_single b l :
  single_underscores b (re_sub_runs is_underscore b l) = true.
Proof.
  revert b. induction l as [|c t IH]; intro b; simpl; [reflexivity|].
  destruct (is_underscore c) eqn:E.
  - destruct b; [apply IH|]. simpl. apply IH.
  - simpl. rewrite E. apply IH.
Qed.

Lemma collapse_fixed b l :
  single_underscores b l = true -> re_sub_runs is_underscore b l = l.
Proof.
  revert b. induction l as [|c t IH]; intro b; simpl; [reflexivity|].
  destruct (is_underscore c) eqn:E.
  - destruct b; simpl; [discriminate|]. intro H.
    rewrite (is_underscore_eq c E). f_equal. apply IH, H.
  - intro H. f_equal. apply IH, H.
Qed.

Lemma lstrip_single p b l :
  single_underscores b l = true -> single_underscores false (lstrip p l) = true.
Proof.
  revert b. induction l as [|c t IH]; intro b; simpl; [reflexivity|].
  destruct (p c).
  - destruct (is_underscore c); [|apply IH].
    intro H. apply andb_true_iff in H. apply (IH true), H.
  - destruct (is_underscore c) eqn:E; simpl; rewrite E; [|auto].
    intro H. apply andb_true_iff in H. apply H.
Qed.

Lemma rstrip_single p b l :
  single_underscores b l = true -> single_underscores b (rstrip p l) = true.
Proof.
  revert b. induction l as [|c t IH]; intro b; [reflexivity|].
  simpl single_underscores at 1. simpl rstrip.
  destruct (is_underscore c) eqn:E.
  - intro H. apply andb_true_iff in H. destruct H as [Hb Ht].
    specialize (IH true Ht).
    destruct (rstrip p t) as [|r rs].
    + destruct (p c); simpl; [reflexivity|]. rewrite E, Hb. reflexivity.
    + simpl. simpl in IH. rewrite E, Hb. exact IH.
  - intro Ht. specialize (IH false Ht).
    destruct (rstrip p t) as [|r rs].
    + destruct (p c); simpl; [reflexivity|]. rewrite E. reflexivity.
    + simpl. simpl in IH. rewrite E. exact IH.
Qed.

Lemma norm_token_normal l : normal (norm_token l).
Proof.
  unfold norm_token, re_sub. split.
  - apply strip_Forall.
    apply re_sub_runs_Forall; [exact settled_underscore|].
    apply Forall_forall. intros c Hc _. revert c Hc. apply Forall_forall.
    apply re_sub_runs_Forall; [exact settled_underscore|].
    unfold lower. apply Forall_forall. intros c Hc Hw.
    apply in_map_iff in Hc. destruct Hc as [c0 [<- _]].
    split; [|apply lower_char_idem].
    unfold non_word in Hw. apply negb_false_iff, Hw.
  - unfold strip. apply rstrip_single, (lstrip_single _ false), collapse_single.
  - apply strip_lstrip.
  - apply strip_rstrip.
Qed.

Lemma norm_token_fixed l : normal l -> norm_token l = l.
Proof.
  intros [Hc Hs Hl Hr]. unfold norm_token, re_sub.
  assert (Hsp : strip isspace l = l).
  { unfold strip. rewrite lstrip_none, rstrip_none; try reflexivity.
    all: eapply Forall_impl; [|exact Hc]; intros c [Hw _];
      destruct (isspace c) eqn:E; [|reflexivity];
      apply space_not_word in E; congruence. }
  rewrite Hsp.
  assert (Hlo : lower l = l).
  { unfold lower. clear -Hc. induction Hc as [|c t [_ Hc] _ IH]; simpl; [reflexivity|].
    rewrite Hc, IH. reflexivity. }
  rewrite Hlo.
  rewrite (re_sub_runs_none non_word).
  - rewrite (collapse_fixed false l Hs). unfold strip. rewrite Hl. exact Hr.
  - eapply Forall_impl; [|exact Hc]. intros c [Hw _]. unfold non_word.
    rewrite Hw. reflexivity.
Qed.

Lemma norm_token_idem l : norm_token (norm_token l) = norm_token l.
Proof. apply norm_token_fixed, norm_token_normal. Qed.

Lemma on_chars_compose f g s :
  on_chars f (on_chars g s) = on_chars (fun l => f (g l)) s.
Proof. unfold on_chars. rewrite list_ascii_of_string_of_list_ascii. reflexivity. Qed.

End PyFacts.

(** C7. Header normalisation is idempotent: for every string, [norm_col]
    applied to a result of [norm_col] gives that result back. *)
Theorem norm_col_idempotent (name : string) :
  norm_col (norm_col name) = norm_col name.
Proof.
  unfold norm_col. rewrite PyFacts.on_chars_compose.
  unfold Py.on_chars. rewrite PyFacts.norm_token_idem. reflexivity.
Qed.

(* ================================================================= *)
(** ** Wage annualisation *)

Module FloatFacts.
Import Float.

Lemma mul_nan_r x : mul x NaN = NaN.
Proof. destruct x; reflexivity. Qed.

Lemma rint_cases q :
  rint q = Qfloor q
  \/ (rint q = (Qfloor q + 1)%Z /\ (inject_Z (Qfloor q) < q)%Q).
Proof.
  unfold rint.
  destruct ((q - inject_Z (Qfloor q)) ?= (1 # 2))%Q eqn:E.
  - destruct (Z.even (Qfloor q)); [left; reflexivity|].
    right. split; [reflexivity|]. apply Qeq_alt in E. lra.
  - left; reflexivity.
  - right. split; [reflexivity|]. apply Qgt_alt in E. lra.
Qed.

Lemma rint_lower (n : Z) q : (inject_Z n <= q)%Q -> (n <= rint q)%Z.
Proof.
  intro H. apply Qfloor_resp_le in H. rewrite Qfloor_Z in H.
  destruct (rint_cases q) as [-> | [-> _]]; lia.
Qed.

Lemma rint_upper (n : Z) q : (q <= inject_Z n)%Q -> (rint q <= n)%Z.
Proof.
  intro H. pose proof (Qfloor_le q) as F.
  destruct (rint_cases q) as [-> | [-> L]].
  - rewrite Zle_Qle. lra.
  - assert (inject_Z (Qfloor q) < inject_Z n)%Q as L' by lra.
    rewrite <- Zlt_Qlt in L'. lia.
Qed.

Lemma round2_in_range w : wage_in_range w -> wage_in_range (round2 w).
Proof.
  destruct w as [| b | q]; simpl; auto.
  intros [Hlo Hhi].
  assert (100000 <= rint (q * 100))%Z as L.
  { apply rint_lower. change (inject_Z 100000) with (1000 * 100)%Q. lra. }
  assert (rint (q * 100) <= 500000000)%Z as U.
  { apply rint_upper. change (inject_Z 500000000) with (5000000 * 100)%Q. lra. }
  rewrite Zle_Qle in L, U.
  change (inject_Z 100000) with (1000 * 100)%Q in L.
  change (inject_Z 500000000) with (5000000 * 100)%Q in U.
  split.
  - apply Qle_shift_div_l; [reflexivity | exact L].
  - apply Qle_shift_div_r; [reflexivity | exact U].
Qed.

Lemma guardrails_keeps a : within_bounds a = true -> guardrails a = a.
Proof.
  unfold guardrails, within_bounds, where_. intros ->.
  rewrite orb_true_r. reflexivity.
Qed.

Lemma guardrails_drops a : within_bounds a = false -> guardrails a = NaN.
Proof.
  unfold guardrails, within_bounds, where_. intros ->.
  destruct a; reflexivity.
Qed.

Lemma within_bounds_in_range a : within_bounds a = true -> wage_in_range a.
Proof.
  destruct a as [| [] | q]; simpl; try discriminate.
  unfold within_bounds, ge, le. intro H. apply andb_true_iff in H.
  destruct H as [H1 H2]. apply Qle_bool_iff in H1, H2. split; assumption.
Qed.

Lemma guardrails_in_range a : wage_in_range (guardrails a).
Proof.
  destruct (within_bounds a) eqn:E.
  - rewrite guardrails_keeps by exact E. apply within_bounds_in_range, E.
  - rewrite guardrails_drops by exact E. exact I.
Qed.

End FloatFacts.

Lemma Forall_filter_map {A B : Type} (P : B -> Prop) (f : A -> B)
  (keep : B -> bool) (l : list A) :
  (forall a, P (f a)) -> Forall P (filter keep (map f l)).
Proof.
  intro H. apply Forall_forall. intros b Hb.
  apply filter_In in Hb. destruct Hb as [Hb _].
  apply in_map_iff in Hb. destruct Hb as [a [<- _]]. apply H.
Qed.

(** C3. Every record that either script emits has a [wage_annual] that is
    missing or lies in [1000, 5000000]; a computed annual figure outside
    the bounds is replaced by the missing value, one inside is kept as it
    is. *)
Theorem wage_annual_missing_or_in_range
  (to_numeric : string -> num) (to_datetime : string -> timestamp)
  (str_upper : string -> string) (df : DataFrame) (strategy : string) :
  Forall (fun ir => wage_in_range (wage_annual (snd ir)))
    (Clean.load_and_clean_dataframe to_numeric to_datetime str_upper
       df strategy)
  /\ Forall (fun ir => wage_in_range (wage_annual (snd ir)))
       (Backfill.load_and_clean to_numeric to_datetime str_upper df)
  /\ (forall annual, within_bounds annual = false ->
                     guardrails annual = NaN)
  /\ (forall annual, within_bounds annual = true ->
                     guardrails annual = annual).
Proof.
  split; [|split; [|split]].
  - unfold Clean.load_and_clean_dataframe.
    apply (Forall_filter_map
             (fun ir : nat * CleanRow => wage_in_range (wage_annual (snd ir)))).
    intros [i r]. simpl.
    apply FloatFacts.round2_in_range, FloatFacts.guardrails_in_range.
  - unfold Backfill.load_and_clean.
    apply (Forall_filter_map
             (fun ir : nat * CleanRow => wage_in_range (wage_annual (snd ir)))).
    intros [i r]. simpl.
    apply FloatFacts.round2_in_range, FloatFacts.guardrails_in_range.
  - exact FloatFacts.guardrails_drops.
  - exact FloatFacts.guardrails_keeps.
Qed.

Lemma wage_annual_missing_or_in_range_witness :
  guardrails (Fin 104000) = Fin 104000
  /\ guardrails (Fin 50) = NaN
  /\ guardrails (Fin 6000000) = NaN.
Proof.
  destruct (wage_annual_missing_or_in_range
              (fun _ => NaN) (fun _ => None) (fun s => s)
              {| columns := ["case_number"]; rows := [(0%nat, [Some "A-1"])] |}
              "from")
    as (_ & _ & Hdrop & Hkeep).
  split; [apply Hkeep; reflexivity | split; apply Hdrop; reflexivity].
Defined.

(** C1. Under the [avg] strategy the base value is the average of
    [wage_rate_from] and [wage_rate_to] when both are present and
    [wage_rate_from] when it alone is present; a row with only
    [wage_rate_to] gets a missing base, where the [from] strategy takes
    [wage_rate_to]. *)
Theorem avg_base_value_by_presence :
  (forall a b : Q, Clean.base_value "avg" (Fin a) (Fin b) = Fin ((a + b) / 2))
  /\ (forall a, Clean.base_value "avg" a NaN = a)
  /\ (forall b, Clean.base_value "avg" NaN b = NaN)
  /\ Clean.compute_wage_annual "avg" NaN (Fin 50000) (Some "Year") = NaN
  /\ Clean.compute_wage_annual "from" NaN (Fin 50000) (Some "Year")
     = Fin 50000.
Proof.
  repeat split.
  intros a. destruct a; reflexivity.
Qed.

(* ================================================================= *)
(** ** Wage units *)

Lemma str_in_iff s l : str_in s l = true <-> In s l.
Proof.
  unfold str_in. rewrite existsb_exists. split.
  - intros [x [Hx E]]. apply String.eqb_eq in E. subst. exact Hx.
  - intro H. exists s. split; [exact H | apply String.eqb_refl].
Qed.

Lemma str_in_false s l : ~ In s l -> str_in s l = false.
Proof.
  intro H. destruct (str_in s l) eqn:E; [|reflexivity].
  apply str_in_iff in E. contradiction.
Qed.

Lemma str_in_cons x y t :
  str_in x (y :: t) = (x =? y)%string || str_in x t.
Proof. reflexivity. Qed.

Ltac variant_listed := simpl; tauto.

Lemma unrecognized_normalizes_to_itself tok :
  let s := Py.on_chars Py.norm_token tok in
  s <> "" -> ~ In s recognized_variants ->
  normalize_wage_unit (PyStr tok) = Some s.
Proof.
  intros s Hne Hn. unfold normalize_wage_unit, str_of_unit_arg. fold s.
  assert (forall l, incl l recognized_variants -> str_in s l = false) as Hl.
  { intros l Hl. apply str_in_false. intro Hs. apply Hn, Hl, Hs. }
  rewrite !Hl by (intros x Hx; simpl in Hx; variant_listed).
  apply String.eqb_neq in Hne. rewrite Hne. reflexivity.
Qed.

Lemma dict_get_none {V : Type} (d : list (string * V)) k :
  ~ In k (map fst d) -> dict_get d k = None.
Proof.
  induction d as [|[k' v] t IH]; simpl; [reflexivity|].
  intro H. destruct (String.eqb_spec k' k) as [E | _].
  - exfalso. apply H. left. exact E.
  - apply IH. intro Hin. apply H. right. exact Hin.
Qed.

Lemma no_factor_outside_table s :
  ~ In s recognized_variants -> s <> "semimonthly" ->
  wage_factor (Some s) = NaN.
Proof.
  intros Hn Hs. unfold wage_factor, str_of_cell.
  rewrite dict_get_none; [reflexivity|].
  intro Hin. apply Hn. simpl in Hin. simpl.
  repeat (destruct Hin as [Hin | Hin]; [auto 25 | ]); try contradiction.
  all: try (exfalso; apply Hs; symmetry; exact Hin).
Qed.

(** C6, as the code has it.  A wage-unit token whose normal form is not
    empty and is none of the spellings [normalize_wage_unit] tests for comes
    back as that normal form, not as missing.  Unless the form is
    "semimonthly", which the unit table lists with multiplier 24, the table
    has no multiplier for it and the annual wage is missing. *)
Theorem unrecognized_unit_passes_through (tok : string) :
  let s := Py.on_chars Py.norm_token tok in
  s <> "" -> ~ In s recognized_variants ->
  normalize_wage_unit (PyStr tok) = Some s
  /\ (s <> "semimonthly" ->
      wage_factor (Some s) = NaN
      /\ forall strategy wage_from wage_to,
           Clean.compute_wage_annual strategy wage_from wage_to (Some tok)
           = NaN
           /\ Backfill.compute_wage_annual wage_from wage_to (Some tok) = NaN)
  /\ (s = "semimonthly" -> wage_factor (Some s) = Fin 24).
Proof.
  intros s Hne Hn.
  pose proof (unrecognized_normalizes_to_itself tok Hne Hn) as Hu. fold s in Hu.
  split; [exact Hu | split].
  - intro Hs. pose proof (no_factor_outside_table s Hn Hs) as Hf.
    split; [exact Hf|]. intros strategy wf wt.
    unfold Clean.compute_wage_annual, Backfill.compute_wage_annual, unit_norm.
    simpl unit_arg_of_cell. rewrite Hu, Hf, !FloatFacts.mul_nan_r.
    split; reflexivity.
  - intros ->. reflexivity.
Qed.

Lemma unrecognized_unit_passes_through_witness :
  normalize_wage_unit (PyStr "Per Annum") = Some "per_annum"
  /\ wage_factor (Some "per_annum") = NaN
  /\ Clean.compute_wage_annual "from" (Fin 60000) NaN (Some "Per Annum") = NaN.
Proof.
  assert (Py.on_chars Py.norm_token "Per Annum" <> "") as Hne
    by (vm_compute; discriminate).
  assert (~ In (Py.on_chars Py.norm_token "Per Annum") recognized_variants)
    as Hn by (vm_compute; intuition discriminate).
  destruct (unrecognized_unit_passes_through "Per Annum" Hne Hn)
    as [Hu [Hf _]].
  assert (Py.on_chars Py.norm_token "Per Annum" <> "semimonthly") as Hs
    by (vm_compute; discriminate).
  destruct (Hf Hs) as [Hfac Hall].
  split; [exact Hu | split; [exact Hfac | exact (proj1 (Hall "from" (Fin 60000) NaN))]].
Defined.

(** C6 as stated fails on two inputs.  "semimonthly" is none of the
    spellings tested for and passes through, yet the unit table gives it the
    multiplier 24 and the annual wage is computed.  "-" is a non-empty token
    whose normal form is empty, and it is treated as missing. *)
Lemma unit_token_counterexample :
  (~ In "semimonthly" recognized_variants
   /\ normalize_wage_unit (PyStr "semimonthly") = Some "semimonthly"
   /\ wage_factor (normalize_wage_unit (PyStr "semimonthly")) = Fin 24
   /\ Clean.compute_wage_annual "from" (Fin 3000) NaN (Some "semimonthly")
      = Fin 72000)
  /\ ("-" <> ""
      /\ ~ In (Py.on_chars Py.norm_token "-") recognized_variants
      /\ normalize_wage_unit (PyStr "-") = None).
Proof.
  repeat split; try reflexivity; try discriminate;
    vm_compute; intuition discriminate.
Qed.

(* ================================================================= *)
(** ** Header resolver *)

Lemma norm_map_get (cols : list string) c :
  In c cols ->
  dict_get (map (fun c => (c, norm_col c)) cols) c = Some (norm_col c).
Proof.
  induction cols as [|x t IH]; simpl; [contradiction|].
  intro H. destruct (String.eqb_spec x c) as [-> | Hne]; [reflexivity|].
  destruct H as [H | H]; [contradiction | exact (IH H)].
Qed.

Lemma filter_none {A : Type} (p : A -> bool) (l : list A) :
  (forall x, In x l -> p x = false) -> filter p l = [].
Proof.
  induction l as [|x t IH]; simpl; [reflexivity|].
  intro H. rewrite (H x) by (left; reflexivity).
  apply IH. intros y Hy. apply H. right. exact Hy.
Qed.

Lemma keep_none (table : list (string * string)) (cols : list string) :
  (forall c, In c cols -> dict_mem table (norm_col c) = false) ->
  filter (fun c => match dict_get (map (fun c => (c, norm_col c)) cols) c with
                   | Some n => dict_mem table n
                   | None => false
                   end) cols = [].
Proof.
  intro H. apply filter_none. intros c Hc.
  rewrite norm_map_get by exact Hc. apply H, Hc.
Qed.

(** C8. When reading the header row fails, or when no header has a normal
    form listed in the synonym table, the resolver of either script answers
    "read every column" ([None]); it never answers with an empty column
    list. *)
Theorem header_resolver_fails_open :
  fst (Clean.infer_usecols_from_xlsx None) = None
  /\ Backfill.infer_usecols_from_xlsx None = None
  /\ (forall header,
        (forall c, In c header ->
                   dict_mem Clean.SOURCE_TO_TARGET (norm_col c) = false) ->
        fst (Clean.infer_usecols_from_xlsx (Some header)) = None)
  /\ (forall header,
        (forall c, In c header ->
                   dict_mem Backfill.SOURCE_TO_TARGET (norm_col c) = false) ->
        Backfill.infer_usecols_from_xlsx (Some header) = None)
  /\ (forall header,
        fst (Clean.infer_usecols_from_xlsx header) <> Some []
        /\ Backfill.infer_usecols_from_xlsx header <> Some []).
Proof.
  split; [reflexivity | split; [reflexivity | split; [|split]]].
  - intros header H. unfold Clean.infer_usecols_from_xlsx.
    rewrite (keep_none _ _ H). reflexivity.
  - intros header H. unfold Backfill.infer_usecols_from_xlsx.
    rewrite (keep_none _ _ H). reflexivity.
  - intros [header|]; [|split; discriminate].
    unfold Clean.infer_usecols_from_xlsx, Backfill.infer_usecols_from_xlsx.
    split.
    + destruct (filter _ header); simpl; discriminate.
    + destruct (filter _ header); simpl; discriminate.
Qed.

Lemma header_resolver_fails_open_witness :
  fst (Clean.infer_usecols_from_xlsx (Some ["Foo"; "Bar Baz"])) = None
  /\ Backfill.infer_usecols_from_xlsx (Some ["Foo"; "Bar Baz"]) = None.
Proof.
  destruct header_resolver_fails_open as [_ [_ [Hc [Hb _]]]].
  split.
  - apply Hc. intros c [<- | [<- | []]]; vm_compute; reflexivity.
  - apply Hb. intros c [<- | [<- | []]]; vm_compute; reflexivity.
Defined.

(* ================================================================= *)
(** ** Fiscal year and quarter of a file name *)

Module FyQ.
Import Backfill.

Ltac char_cases c :=
  destruct c as [[] [] [] [] [] [] [] []]; vm_compute.

Lemma ieq_F c : ieq c "F" = true -> (c = "F" \/ c = "f")%char.
Proof. char_cases c; intro H; try discriminate H; auto. Qed.

Lemma ieq_Y c : ieq c "Y" = true -> (c = "Y" \/ c = "y")%char.
Proof. char_cases c; intro H; try discriminate H; auto. Qed.

Lemma ieq_Q c : ieq c "Q" = true -> (c = "Q" \/ c = "q")%char.
Proof. char_cases c; intro H; try discriminate H; auto. Qed.

Lemma quarter_digit c :
  Py.between 49 52 c = true -> (c = "1" \/ c = "2" \/ c = "3" \/ c = "4")%char.
Proof. char_cases c; intro H; try discriminate H; auto. Qed.

Lemma digit_value_range c :
  Py.isdecimal c = true -> (0 <= digit_value c <= 9)%Z.
Proof. char_cases c; intro H; try discriminate H; split; discriminate. Qed.

Lemma four_digits_range d1 d2 d3 d4 :
  forallb Py.isdecimal [d1; d2; d3; d4] = true ->
  (0 <= int_of_digits [d1; d2; d3; d4] <= 9999)%Z.
Proof.
  simpl forallb. rewrite !andb_true_iff. intros [H1 [H2 [H3 [H4 _]]]].
  apply digit_value_range in H1, H2, H3, H4.
  unfold int_of_digits. simpl fold_left. lia.
Qed.

(** What a match at the head of [l] consists of. *)
Lemma match_fy_q_inv l fy q :
  match_fy_q l = Some (fy, q) ->
  exists f y d1 d2 d3 d4 qc n post,
    l = [f; y; d1; d2; d3; d4; "_"%char; qc; n] ++ post
    /\ (f = "F" \/ f = "f")%char
    /\ (y = "Y" \/ y = "y")%char
    /\ (qc = "Q" \/ qc = "q")%char
    /\ forallb Py.isdecimal [d1; d2; d3; d4] = true
    /\ fy = int_of_digits [d1; d2; d3; d4]
    /\ (n = "1" \/ n = "2" \/ n = "3" \/ n = "4")%char
    /\ q = digit_value n.
Proof.
  unfold match_fy_q.
  destruct l as [|f [|y [|d1 [|d2 [|d3 [|d4 [|u [|qc [|n post]]]]]]]]];
    try discriminate.
  destruct (ieq f "F") eqn:Ef; [|discriminate].
  destruct (ieq y "Y") eqn:Ey; [|discriminate].
  destruct (forallb Py.isdecimal [d1; d2; d3; d4]) eqn:Ed; [|discriminate].
  destruct (u =? "_")%char eqn:Eu; [|discriminate].
  destruct (ieq qc "Q") eqn:Eq; [|discriminate].
  destruct (Py.between 49 52 n) eqn:En; [|discriminate].
  cbn [andb]. intro H. injection H as <- <-.
  apply Ascii.eqb_eq in Eu. subst u.
  exists f, y, d1, d2, d3, d4, qc, n, post.
  repeat split; auto using ieq_F, ieq_Y, ieq_Q, quarter_digit.
Qed.

Lemma search_fy_q_inv l fy q :
  search_fy_q l = Some (fy, q) ->
  exists pre rest, l = pre ++ rest /\ match_fy_q rest = Some (fy, q).
Proof.
  induction l as [|c t IH].
  - simpl. discriminate.
  - cbn [search_fy_q].
    destruct (match_fy_q (c :: t)) as [r|] eqn:E.
    + intro H. injection H as ->. exists [], (c :: t). split; [reflexivity | exact E].
    + intro H. destruct (IH H) as [pre [rest [-> Hm]]].
      exists (c :: pre), rest. split; [reflexivity | exact Hm].
Qed.

(** The result of [parse_fy_q] is a pair of two missing values or a pair of
    two values read off an occurrence of the pattern. *)
Lemma parse_fy_q_shape filename :
  parse_fy_q filename = (None, None)
  \/ exists fy q,
       parse_fy_q filename = (Some fy, Some q)
       /\ (0 <= fy <= 9999)%Z /\ (1 <= q <= 4)%Z
       /\ fy_q_occurs filename fy q.
Proof.
  unfold parse_fy_q.
  destruct (search_fy_q (list_ascii_of_string filename)) as [[fy q]|] eqn:E;
    [right | left; reflexivity].
  exists fy, q. split; [reflexivity|].
  apply search_fy_q_inv in E. destruct E as [pre [rest [Hl Hm]]].
  apply match_fy_q_inv in Hm.
  destruct Hm as (f & y & d1 & d2 & d3 & d4 & qc & n & post
                  & -> & Hf & Hy & Hq & Hd & -> & Hn & ->).
  split; [apply four_digits_range, Hd | split].
  - destruct Hn as [-> | [-> | [-> | ->]]]; vm_compute; split; discriminate.
  - exists pre, f, y, d1, d2, d3, d4, qc, n, post. repeat split; auto.
Qed.

End FyQ.

(** C10, as the code has it.  For every file name [parse_fy_q] returns
    both a fiscal year and a quarter or neither.  When present they are
    read off an occurrence of FY, four digits, underscore, Q and a digit 1-4
    in the name: the quarter lies between 1 and 4 and the fiscal year is
    the value of the four digits, between 0 and 9999. *)
Theorem parse_fy_q_both_or_neither (filename : string) :
  match Backfill.parse_fy_q filename with
  | (None, None) => True
  | (Some fy, Some q) =>
      (1 <= q <= 4)%Z /\ (0 <= fy <= 9999)%Z /\ fy_q_occurs filename fy q
  | _ => False
  end.
Proof.
  destruct (FyQ.parse_fy_q_shape filename) as [-> | (fy & q & -> & Hfy & Hq & Ho)].
  - exact I.
  - repeat split; try apply Hq; try apply Hfy; exact Ho.
Qed.

(** C10 as stated fails where the four digits start with a zero: the
    fiscal year returned for "LCA_FY0123_Q1.xlsx" is 123, which has three
    digits. *)
Lemma parse_fy_q_counterexample :
  Backfill.parse_fy_q "LCA_FY0123_Q1.xlsx" = (Some 123%Z, Some 1%Z)
  /\ ~ (1000 <= 123 <= 9999)%Z.
Proof. split; [reflexivity | lia]. Qed.

(* ================================================================= *)
(** ** Processing order of batch mode *)

Module Order.
Import Backfill.
















End Order.



(* ================================================================= *)
(** ** Duplicate columns *)

Module Coalesce.

Lemma iloc0_bfill_some x t : iloc0 (bfill (Some x :: t)) = Some x.
Proof. reflexivity. Qed.

Lemma iloc0_bfill_none t : iloc0 (bfill (None :: t)) = iloc0 (bfill t).
Proof. reflexivity. Qed.

Lemma merged_cons_same name cs x xs :
  merged name (name :: cs) (x :: xs)
  = match x with Some a => Some a | None => merged name cs xs end.
Proof.
  unfold merged. simpl loc_name. rewrite String.eqb_refl.
  destruct x; reflexivity.
Qed.

Lemma merged_cons_other name c cs x xs :
  c <> name -> merged name (c :: cs) (x :: xs) = merged name cs xs.
Proof.
  intro H. unfold merged. simpl loc_name.
  apply String.eqb_neq in H. rewrite H. reflexivity.
Qed.

Lemma leftmost_shift name c cs (x : cell) xs v :
  (c = name -> x = None) ->
  leftmost_present name cs xs v ->
  leftmost_present name (c :: cs) (x :: xs) v.
Proof.
  intros Hx. destruct v as [a|]; simpl.
  - intros [j [Hc [Hr Hk]]]. exists (S j). repeat split; try assumption.
    intros [|k] Hlt Hn; simpl in *.
    + injection Hn as Hn. rewrite (Hx Hn). reflexivity.
    + apply Hk; [lia | exact Hn].
  - intros H [|j] c0 Hc Hr; simpl in *.
    + injection Hc as Hc. injection Hr as <-. exact (Hx Hc).
    + exact (H j c0 Hc Hr).
Qed.

Lemma merged_leftmost name cols r :
  leftmost_present name cols r (merged name cols r).
Proof.
  revert r. induction cols as [|c cs IH]; intro r.
  - unfold merged. simpl. intros [|j] c0 H; discriminate H.
  - destruct r as [|x xs].
    + unfold merged. simpl. intros [|j] c0 _ H; discriminate H.
    + destruct (string_dec c name) as [-> | Hne].
      * rewrite merged_cons_same. destruct x as [a|].
        -- exists 0%nat. repeat split. intros k Hk. lia.
        -- apply leftmost_shift; [reflexivity | apply IH].
      * rewrite merged_cons_other by exact Hne.
        apply leftmost_shift; [intro E; contradiction | apply IH].
Qed.

Lemma loc_name_absent name cols r : ~ In name cols -> loc_name name cols r = [].
Proof.
  revert r. induction cols as [|c cs IH]; intros r H; [reflexivity|].
  destruct r as [|x xs]; [reflexivity|]. simpl.
  destruct (String.eqb_spec c name) as [E | _].
  - exfalso. apply H. left. exact E.
  - apply IH. intro Hin. apply H. right. exact Hin.
Qed.

Lemma merged_absent name cols r : ~ In name cols -> merged name cols r = None.
Proof. intro H. unfold merged. rewrite loc_name_absent by exact H. reflexivity. Qed.

(** With unique labels, reading a column is reading its merged cell. *)
Lemma get_cell_unique name cols r :
  is_unique cols = true -> get_cell name cols r = merged name cols r.
Proof.
  revert r. induction cols as [|c cs IH]; intros r H; [reflexivity|].
  destruct r as [|x xs]; [reflexivity|].
  simpl in H. apply andb_true_iff in H. destruct H as [Hc Hu].
  simpl get_cell. destruct (String.eqb_spec c name) as [-> | Hne].
  - rewrite merged_cons_same.
    rewrite merged_absent; [destruct x; reflexivity|].
    intro Hin. apply str_in_iff in Hin. apply negb_true_iff in Hc. congruence.
  - rewrite merged_cons_other by exact Hne. apply IH, Hu.
Qed.

Lemma get_cell_map name (f : string -> cell) names :
  get_cell name names (map f names)
  = if str_in name names then f name else None.
Proof.
  induction names as [|c cs IH]; [reflexivity|].
  simpl get_cell. rewrite str_in_cons, (String.eqb_sym name c).
  destruct (String.eqb_spec c name) as [-> | _]; [reflexivity | exact IH].
Qed.

Lemma unique_from_In seen l x :
  In x (unique_from seen l) <-> In x l /\ ~ In x seen.
Proof.
  revert seen. induction l as [|y t IH]; intro seen; simpl; [tauto|].
  destruct (str_in y seen) eqn:E.
  - apply str_in_iff in E. rewrite IH. split.
    + tauto.
    + intros [[-> | H] Hn]; [contradiction | tauto].
  - assert (~ In y seen) as Hy.
    { intro H. apply str_in_iff in H. congruence. }
    simpl. rewrite IH. simpl. split.
    + intros [-> | [H Hn]]; [tauto|]. split; [tauto|]. tauto.
    + intros [[-> | H] Hn]; [tauto|].
      destruct (string_dec y x) as [-> | Hne]; [tauto|]. right. tauto.
Qed.

Lemma unique_In l x : In x (unique l) <-> In x l.
Proof. unfold unique. rewrite unique_from_In. simpl. tauto. Qed.

Lemma count_unique_from seen l name :
  count_occ string_dec (unique_from seen l) name
  = if str_in name l && negb (str_in name seen) then 1%nat else 0%nat.
Proof.
  revert seen. induction l as [|y t IH]; intro seen; [reflexivity|].
  simpl unique_from. rewrite str_in_cons.
  destruct (str_in y seen) eqn:E.
  - rewrite IH. destruct (String.eqb_spec name y) as [-> | _]; [|reflexivity].
    rewrite E. simpl. rewrite andb_false_r. reflexivity.
  - destruct (string_dec y name) as [-> | Hne].
    + rewrite count_occ_cons_eq by reflexivity. rewrite IH.
      rewrite String.eqb_refl, E, str_in_cons, String.eqb_refl. simpl.
      rewrite andb_false_r. reflexivity.
    + rewrite count_occ_cons_neq by exact Hne. rewrite IH.
      rewrite str_in_cons.
      apply String.eqb_neq in Hne. rewrite String.eqb_sym in Hne.
      rewrite Hne. reflexivity.
Qed.

Lemma is_unique_count l name :
  is_unique l = true -> (count_occ string_dec l name <= 1)%nat.
Proof.
  induction l as [|y t IH]; simpl; [lia|].
  intro H. apply andb_true_iff in H. destruct H as [Hy Hu].
  destruct (string_dec y name) as [-> | _]; [|exact (IH Hu)].
  assert (~ In name t) as Hn.
  { intro Hin. apply str_in_iff in Hin. apply negb_true_iff in Hy. congruence. }
  apply (count_occ_not_In string_dec) in Hn. lia.
Qed.

Lemma rows_coalesced df :
  rows (coalesce_duplicate_columns df)
  = map (fun ir => (fst ir, merge_row (columns df) (snd ir))) (rows df).
Proof.
  unfold coalesce_duplicate_columns, merge_row.
  destruct (is_unique (columns df)); [|reflexivity].
  induction (rows df) as [|[i r] t IH]; simpl; [reflexivity|].
  rewrite <- IH. reflexivity.
Qed.

(** Reading a name in a coalesced row gives the merged cell of the name,
    with and without duplicates. *)
Lemma coalesced_cell df name r :
  get_cell name (columns (coalesce_duplicate_columns df))
    (merge_row (columns df) r)
  = merged name (columns df) r.
Proof.
  unfold coalesce_duplicate_columns, merge_row.
  destruct (is_unique (columns df)) eqn:E.
  - apply get_cell_unique, E.
  - simpl columns. unfold coalesce_row. rewrite get_cell_map.
    destruct (str_in name (unique (columns df))) eqn:Hin; [reflexivity|].
    symmetry. apply merged_absent. intro H.
    apply unique_In, str_in_iff in H. congruence.
Qed.

End Coalesce.

(** C5. When a name labels two or more columns, coalescing leaves one
    column of that name; the row labels are kept, and in every row the
    merged cell is the first non-missing value of the duplicates scanning
    left to right, missing only when all of them are missing.  The function
    is total: there is no input on which it fails. *)
Theorem coalesce_takes_first_non_missing (df : DataFrame) (name : string) :
  (2 <= count_occ string_dec (columns df) name)%nat ->
  let out := coalesce_duplicate_columns df in
  count_occ string_dec (columns out) name = 1%nat
  /\ map fst (rows out) = map fst (rows df)
  /\ forall k i r,
       nth_error (rows df) k = Some (i, r) ->
       exists r',
         nth_error (rows out) k = Some (i, r')
         /\ leftmost_present name (columns df) r
              (get_cell name (columns out) r').
Proof.
  intros Hdup out.
  assert (is_unique (columns df) = false) as Hu.
  { destruct (is_unique (columns df)) eqn:E; [|reflexivity].
    pose proof (Coalesce.is_unique_count _ name E). lia. }
  split; [|split].
  - unfold out, coalesce_duplicate_columns. rewrite Hu. simpl columns.
    unfold unique. rewrite Coalesce.count_unique_from. simpl.
    rewrite andb_true_r.
    destruct (str_in name (columns df)) eqn:E; [reflexivity|].
    assert (~ In name (columns df)) as Hn.
    { intro H. apply str_in_iff in H. congruence. }
    apply (count_occ_not_In string_dec) in Hn. lia.
  - unfold out. rewrite Coalesce.rows_coalesced, map_map. reflexivity.
  - intros k i r Hk. exists (merge_row (columns df) r). split.
    + unfold out. rewrite Coalesce.rows_coalesced.
      rewrite nth_error_map, Hk. reflexivity.
    + unfold out. rewrite Coalesce.coalesced_cell.
      apply Coalesce.merged_leftmost.
Qed.

Lemma coalesce_takes_first_non_missing_witness :
  let raw := {| columns := ["Employer Name"; "Job Title"; "EMPLOYER"];
                rows := [ (0%nat, [Some "Acme"; Some "Engineer"; None]);
                          (1%nat, [None; Some "Analyst"; Some "Bolt"]) ] |} in
  let df := rename_frame Clean.SOURCE_TO_TARGET raw in
  let out := coalesce_duplicate_columns df in
  exists r',
    nth_error (rows out) 1 = Some (1%nat, r')
    /\ leftmost_present "employer_name" (columns df)
         [None; Some "Analyst"; Some "Bolt"]
         (get_cell "employer_name" (columns out) r').
Proof.
  intros raw df out.
  assert (2 <= count_occ string_dec (columns df) "employer_name")%nat as H
    by (vm_compute; lia).
  destruct (coalesce_takes_first_non_missing df "employer_name" H)
    as [_ [_ Hrows]].
  apply (Hrows 1%nat 1%nat). reflexivity.
Defined.

(* ================================================================= *)
(** ** Record filter *)

Module Filter.

Lemma str_strip_idem s : Py.str_strip (Py.str_strip s) = Py.str_strip s.
Proof.
  unfold Py.str_strip. rewrite PyFacts.on_chars_compose.
  unfold Py.on_chars. rewrite PyFacts.strip_idem. reflexivity.
Qed.

Lemma clean_text_series_idem c :
  clean_text_series (clean_text_series c) = clean_text_series c.
Proof.
  unfold clean_text_series. destruct c as [s|]; [|reflexivity].
  cbn [option_map]. unfold replace_na.
  destruct (str_in (Py.str_strip s) _) eqn:E; [reflexivity|].
  cbn [option_map]. rewrite str_strip_idem, E. reflexivity.
Qed.

Lemma filter_map_swap {A B : Type} (g : A -> B) (p : B -> bool) l :
  filter p (map g l) = map g (filter (fun a => p (g a)) l).
Proof.
  induction l as [|a t IH]; simpl; [reflexivity|].
  destruct (p (g a)); simpl; rewrite IH; reflexivity.
Qed.

Lemma is_some_iff {A : Type} (o : option A) : is_some o = true <-> o <> None.
Proof. destruct o; simpl; split; congruence. Qed.

(** Which index labels survive a filter on the rows. *)
Lemma kept_labels {A B : Type} (f : A -> B) (q : A -> bool)
  (l : list (nat * A)) (i : nat) :
  In i (map fst (map (fun ir => (fst ir, f (snd ir)))
                   (filter (fun ir => q (snd ir)) l)))
  <-> exists r, In (i, r) l /\ q r = true.
Proof.
  rewrite map_map. simpl. rewrite in_map_iff. split.
  - intros [[j r] [<- H]]. apply filter_In in H. exists r. exact H.
  - intros [r H]. exists (i, r). split; [reflexivity|].
    apply filter_In. exact H.
Qed.

Section Pipelines.
Variable to_numeric : string -> num.
Variable to_datetime : string -> timestamp.
Variable str_upper : string -> string.
Variable df : DataFrame.

Lemma clean_shape strategy :
  exists f,
  Clean.load_and_clean_dataframe to_numeric to_datetime str_upper df strategy
  = map (fun ir => (fst ir, f (snd ir)))
      (filter (fun ir => is_some
                 (normalized_case_number Clean.SOURCE_TO_TARGET df (snd ir)))
         (rows df))
  /\ forall r, case_number (f r)
               = normalized_case_number Clean.SOURCE_TO_TARGET df r.
Proof.
  pose (f := fun r =>
    Clean.clean_row to_numeric to_datetime str_upper strategy
      (columns (coalesce_duplicate_columns (rename_frame Clean.SOURCE_TO_TARGET df)))
      (merge_row (rename_columns Clean.SOURCE_TO_TARGET (columns df)) r)).
  exists f.
  assert (forall r, case_number (f r)
                    = normalized_case_number Clean.SOURCE_TO_TARGET df r) as Hc.
  { intro r. unfold f, Clean.clean_row. cbn [case_number].
    rewrite clean_text_series_idem.
    rewrite (Coalesce.coalesced_cell (rename_frame Clean.SOURCE_TO_TARGET df)).
    reflexivity. }
  split; [|exact Hc].
  unfold Clean.load_and_clean_dataframe. fold (rename_frame Clean.SOURCE_TO_TARGET df).
  rewrite Coalesce.rows_coalesced, map_map, filter_map_swap.
  cbn [fst snd rows columns rename_frame]. fold f.
  f_equal. apply filter_ext. intros [i r]. cbn [snd]. rewrite <- Hc. reflexivity.
Qed.

Lemma backfill_shape :
  exists f,
  Backfill.load_and_clean to_numeric to_datetime str_upper df
  = map (fun ir => (fst ir, f (snd ir)))
      (filter (fun ir => is_some
                 (normalized_case_number Backfill.SOURCE_TO_TARGET df (snd ir)))
         (rows df))
  /\ forall r, case_number (f r)
               = normalized_case_number Backfill.SOURCE_TO_TARGET df r.
Proof.
  pose (f := fun r =>
    Backfill.clean_row to_numeric to_datetime str_upper
      (columns (coalesce_duplicate_columns (rename_frame Backfill.SOURCE_TO_TARGET df)))
      (merge_row (rename_columns Backfill.SOURCE_TO_TARGET (columns df)) r)).
  exists f.
  assert (forall r, case_number (f r)
                    = normalized_case_number Backfill.SOURCE_TO_TARGET df r)
    as Hc.
  { intro r. unfold f, Backfill.clean_row. cbn [case_number].
    rewrite (Coalesce.coalesced_cell (rename_frame Backfill.SOURCE_TO_TARGET df)).
    reflexivity. }
  split; [|exact Hc].
  unfold Backfill.load_and_clean. fold (rename_frame Backfill.SOURCE_TO_TARGET df).
  rewrite Coalesce.rows_coalesced, map_map, filter_map_swap.
  cbn [fst snd rows columns rename_frame]. fold f.
  f_equal. apply filter_ext. intros [i r]. cbn [snd]. rewrite <- Hc. reflexivity.
Qed.

End Pipelines.

End Filter.

(** C2. In either script the output holds, in input order and under their
    index labels, exactly the rows whose [case_number] is not missing after
    renaming, coalescing and text normalisation; the record kept for such a
    row carries that normalised [case_number].  The other rows are left
    out, and no input makes the function fail. *)
Theorem rows_kept_iff_case_number
  (to_numeric : string -> num) (to_datetime : string -> timestamp)
  (str_upper : string -> string) (df : DataFrame) (strategy : string) :
  let kept table :=
    filter (fun ir => is_some (normalized_case_number table df (snd ir)))
      (rows df) in
  let clean_out :=
    Clean.load_and_clean_dataframe to_numeric to_datetime str_upper
      df strategy in
  let backfill_out :=
    Backfill.load_and_clean to_numeric to_datetime str_upper df in
  (exists f,
     clean_out = map (fun ir => (fst ir, f (snd ir)))
                   (kept Clean.SOURCE_TO_TARGET)
     /\ forall r, case_number (f r)
                  = normalized_case_number Clean.SOURCE_TO_TARGET df r)
  /\ (exists f,
        backfill_out = map (fun ir => (fst ir, f (snd ir)))
                         (kept Backfill.SOURCE_TO_TARGET)
        /\ forall r, case_number (f r)
                     = normalized_case_number Backfill.SOURCE_TO_TARGET df r)
  /\ (forall i,
        In i (map fst clean_out)
        <-> exists r, In (i, r) (rows df)
                      /\ normalized_case_number Clean.SOURCE_TO_TARGET df r
                         <> None)
  /\ (forall i,
        In i (map fst backfill_out)
        <-> exists r, In (i, r) (rows df)
                      /\ normalized_case_number Backfill.SOURCE_TO_TARGET df r
                         <> None).
Proof.
  intros kept clean_out backfill_out.
  destruct (Filter.clean_shape to_numeric to_datetime str_upper df strategy)
    as [fc [Hc Hcn]].
  destruct (Filter.backfill_shape to_numeric to_datetime str_upper df)
    as [fb [Hb Hbn]].
  split; [exists fc; split; [exact Hc | exact Hcn]|].
  split; [exists fb; split; [exact Hb | exact Hbn]|].
  split; intro i.
  - unfold clean_out. rewrite Hc.
    rewrite (Filter.kept_labels _
               (fun r => is_some
                  (normalized_case_number Clean.SOURCE_TO_TARGET df r))).
    split; intros [r [H1 H2]]; exists r; (split; [exact H1|]);
      apply Filter.is_some_iff; exact H2.
  - unfold backfill_out. rewrite Hb.
    rewrite (Filter.kept_labels _
               (fun r => is_some
                  (normalized_case_number Backfill.SOURCE_TO_TARGET df r))).
    split; intros [r [H1 H2]]; exists r; (split; [exact H1|]);
      apply Filter.is_some_iff; exact H2.
Qed.

(* ================================================================= *)
(** ** Mixed date parsing *)

Module DateFacts.

Lemma serial_text_kept s :
  fullmatch_serial s = true -> str_in s [""; "nan"; "NaN"] = false.
Proof.
  intro H. destruct (str_in s [""; "nan"; "NaN"]) eqn:E; [|reflexivity].
  apply str_in_iff in E. simpl in E.
  destruct E as [<- | [<- | [<- | []]]]; vm_compute in H; discriminate H.
Qed.

Lemma date_of_serial n :
  Calendar.date_of (Calendar.of_serial n)
  = Calendar.civil_from_days (Calendar.days_from_civil 1899 12 30 + n).
Proof.
  unfold Calendar.date_of, Calendar.of_serial, Calendar.excel_origin.
  rewrite <- Z.mul_add_distr_r, Z.div_mul by (vm_compute; discriminate).
  reflexivity.
Qed.

Section Parser.
Variable to_datetime : string -> timestamp.

Lemma calendar_first v s t :
  date_text (Some v) = Some s -> to_datetime s = Some t ->
  parse_mixed_date_series to_datetime (Some v) = Some t.
Proof.
  intros Hs Ht. unfold parse_mixed_date_series. rewrite Hs, Ht. reflexivity.
Qed.

Lemma serial_second v :
  let s := Py.str_strip v in
  let n := int_of_digits (list_ascii_of_string s) in
  to_datetime s = None -> fullmatch_serial s = true ->
  (18000 <= n <= 60000)%Z ->
  parse_mixed_date_series to_datetime (Some v) = Some (Calendar.of_serial n).
Proof.
  intros s n Ht Hm Hn. unfold parse_mixed_date_series, date_text.
  cbn [option_map]. fold s. unfold replace_na.
  rewrite (serial_text_kept s Hm), Ht. unfold serial_val. rewrite Hm. fold n.
  destruct Hn as [Hlo Hhi]. apply Z.leb_le in Hlo, Hhi. rewrite Hlo, Hhi.
  reflexivity.
Qed.

Lemma neither_path v :
  let s := Py.str_strip v in
  let n := int_of_digits (list_ascii_of_string s) in
  to_datetime s = None ->
  fullmatch_serial s && ((18000 <=? n)%Z && (n <=? 60000)%Z) = false ->
  parse_mixed_date_series to_datetime (Some v) = None.
Proof.
  intros s n Ht Hm. unfold parse_mixed_date_series, date_text.
  cbn [option_map]. fold s. unfold replace_na.
  destruct (str_in s [""; "nan"; "NaN"]); [reflexivity|].
  rewrite Ht. unfold serial_val.
  destruct (fullmatch_serial s); [|reflexivity].
  fold n. simpl in Hm. rewrite Hm. reflexivity.
Qed.

End Parser.

End DateFacts.

(** C4. Where calendar parsing gives a timestamp, that is the result.
    Where it fails and the trimmed value is a numeral of 4 to 6 digits with
    a value in [18000, 60000], the result is the timestamp that many days
    after 1899-12-30, whose calendar date is that day offset from the
    epoch date.  The string "2021-03-15", which the calendar parser reads,
    and the serial "44270", which it does not, both give the date
    2021-03-15.  A value on neither path gives the missing value; the
    function is total. *)
Theorem parse_mixed_date_two_paths (to_datetime : string -> timestamp) :
  (forall v s t,
     date_text (Some v) = Some s -> to_datetime s = Some t ->
     parse_mixed_date_series to_datetime (Some v) = Some t)
  /\ (forall v,
        let s := Py.str_strip v in
        let n := int_of_digits (list_ascii_of_string s) in
        to_datetime s = None -> fullmatch_serial s = true ->
        (18000 <= n <= 60000)%Z ->
        parse_mixed_date_series to_datetime (Some v)
        = Some (Calendar.of_serial n)
        /\ Calendar.date_of (Calendar.of_serial n)
           = Calendar.civil_from_days
               (Calendar.days_from_civil 1899 12 30 + n))
  /\ Calendar.date_of (Calendar.of_serial 0) = (1899, 12, 30)%Z
  /\ (forall t,
        to_datetime "2021-03-15" = Some t ->
        Calendar.date_of t = (2021, 3, 15)%Z ->
        exists t', parse_mixed_date_series to_datetime (Some "2021-03-15")
                   = Some t'
                   /\ Calendar.date_of t' = (2021, 3, 15)%Z)
  /\ (to_datetime "44270" = None ->
      exists t', parse_mixed_date_series to_datetime (Some "44270") = Some t'
                 /\ Calendar.date_of t' = (2021, 3, 15)%Z)
  /\ (forall v,
        let s := Py.str_strip v in
        let n := int_of_digits (list_ascii_of_string s) in
        to_datetime s = None ->
        fullmatch_serial s && ((18000 <=? n)%Z && (n <=? 60000)%Z) = false ->
        parse_mixed_date_series to_datetime (Some v) = None)
  /\ parse_mixed_date_series to_datetime None = None.
Proof.
  split; [exact (DateFacts.calendar_first to_datetime)|].
  split; [intros v s n Ht Hm Hn; split;
          [exact (DateFacts.serial_second to_datetime v Ht Hm Hn)
          | apply DateFacts.date_of_serial]|].
  split; [reflexivity|].
  split; [|split; [|split; [exact (DateFacts.neither_path to_datetime)
                           | reflexivity]]].
  - intros t Ht Hd. exists t. split; [|exact Hd].
    apply (DateFacts.calendar_first to_datetime _ "2021-03-15");
      [reflexivity | exact Ht].
  - intro Ht. exists (Calendar.of_serial 44270). split; [|reflexivity].
    apply (DateFacts.serial_second to_datetime "44270");
      [exact Ht | reflexivity | vm_compute; split; discriminate].
Qed.

Lemma parse_mixed_date_two_paths_witness :
  (exists t, parse_mixed_date_series iso_to_datetime (Some "2021-03-15")
             = Some t
             /\ Calendar.date_of t = (2021, 3, 15)%Z)
  /\ (exists t, parse_mixed_date_series iso_to_datetime (Some "44270")
                = Some t
                /\ Calendar.date_of t = (2021, 3, 15)%Z)
  /\ parse_mixed_date_series iso_to_datetime (Some "n/a") = None.
Proof.
  destruct (parse_mixed_date_two_paths iso_to_datetime)
    as (_ & _ & _ & Hiso & Hserial & Hnone & _).
  split; [|split].
  - apply (Hiso (Calendar.days_from_civil 2021 3 15 * Calendar.ns_per_day)%Z);
      reflexivity.
  - apply Hserial. reflexivity.
  - apply Hnone; reflexivity.
Defined.

Lemma rows_kept_iff_case_number_witness :
  let df := {| columns := ["Case Number"; "CASE_NO"; "Status"];
               rows := [ (0%nat, [Some " A-1 "; None; Some "Certified"]);
                         (1%nat, [Some " nan "; None; Some "Denied"]);
                         (2%nat, [None; Some "B-2"; None]) ] |} in
  let out :=
    Clean.load_and_clean_dataframe (fun _ => NaN) (fun _ => None)
      (fun s => s) df "from" in
  In 2%nat (map fst out) /\ ~ In 1%nat (map fst out).
Proof.
  intros df out.
  destruct (rows_kept_iff_case_number (fun _ => NaN) (fun _ => None)
              (fun s => s) df "from") as (_ & _ & Hclean & _).
  split.
  - apply Hclean. exists [None; Some "B-2"; None]. split.
    + simpl; tauto.
    + vm_compute. discriminate.
  - intro H. apply Hclean in H. destruct H as [r [Hin Hcn]].
    simpl in Hin. destruct Hin as [E | [E | [E | []]]]; try discriminate E.
    injection E as <-. apply Hcn. vm_compute. reflexivity.
Defined.
